(** * prom-label-proxy: the query middleware (package [querymw])

    A shallow embedding of the request pipeline of the proxy: the
    [ThanosClient] stages ([Exit], [Jitterer], [Observer], [Backpressure]),
    the configuration check [Config.Validate], the URL serialisation
    [QueryOptions.AddTo] and the strict router [strictMux.Handle].

    Go values are modelled as follows.
    - [int], [int64], [time.Duration] (nanoseconds) and [time.Time]
      (nanoseconds on the process clock) are [Z].
    - An [error] interface value is [option error]; [None] is [nil].
    - A [map] used as a map is a [gmap], a [map] used as a set is a [gset].
    - A function with effects is a function of the [World] that either
      returns a value and a new world or panics. *)

From Stdlib Require Import ZArith Ascii String List Lia.
From stdpp Require Import base gmap strings list.

Local Open Scope Z_scope.

(** ** Errors *)

(** Modelled from the spec: the declaration of [RequestBlockedError] is not
    among the sources; the spec describes it as a structured error that
    carries the type tag of the middleware that refused the request. *)
Record RequestBlockedError := { Type' : string }.

(** Modelled from the spec: the package-level configuration errors named by
    [Config.Validate]; their declarations are not among the sources, the
    spec says they are distinct error kinds. *)
Inductive ConfigError :=
| ErrJitterDelayRequired
| ErrBackpressureQueryRequired
| ErrBackpressureURLRequired
| ErrCongestionWindowMinBelowOne
| ErrCongestionWindowMaxBelowMin
| ErrRegistryRequired.

(** The dynamic values an [error] interface holds in this package.
    [blockedPtr p] is a [*RequestBlockedError]; [p = None] is the nil
    pointer of that type stored in a non-nil interface. *)
Inductive error :=
| errorString (msg : string)
| sentinel (e : ConfigError)
| blockedPtr (p : option RequestBlockedError)
| wrapError (msg : string) (inner : error).

(** [errors.As(err, &target)] for [target : *RequestBlockedError]: walks the
    chain of wrapped errors; at the first error whose dynamic type is
    [*RequestBlockedError] it stores that pointer in [target] and reports
    [true], otherwise [target] keeps its value and the answer is [false]. *)
Fixpoint errors_As (err : error) (target : option RequestBlockedError)
  : bool * option RequestBlockedError :=
  match err with
  | blockedPtr p => (true, p)
  | wrapError _ inner => errors_As inner target
  | errorString _ | sentinel _ => (false, target)
  end.

(** ** The world *)

Module CongestionState.
(** Modelled from the spec: the fields of the controller guarded by its
    mutex (section 3, CongestionState). *)
Record t := mk { min : Z; max : Z; watermark : Z; active : Z }.
End CongestionState.

(** Everything a stage can read or change besides its arguments. *)
Record World := mkWorld {
  clock : Z;                                (* the process clock, in ns *)
  rand_src : list Z;                        (* the coming draws of math/rand *)
  slept : list Z;                           (* arguments of time.Sleep, oldest first *)
  metrics : gmap (string * list string) Z;  (* counter values by name and label values *)
  registry : gset string;                   (* collectors registered so far *)
  congestion : CongestionState.t            (* the state of the controller *)
}.

Definition set_clock (c : Z) (w : World) : World :=
  mkWorld c (rand_src w) (slept w) (metrics w) (registry w) (congestion w).
Definition set_rand_src (r : list Z) (w : World) : World :=
  mkWorld (clock w) r (slept w) (metrics w) (registry w) (congestion w).
Definition set_slept (l : list Z) (w : World) : World :=
  mkWorld (clock w) (rand_src w) l (metrics w) (registry w) (congestion w).
Definition set_metrics (m : gmap (string * list string) Z) (w : World) : World :=
  mkWorld (clock w) (rand_src w) (slept w) m (registry w) (congestion w).
Definition set_registry (r : gset string) (w : World) : World :=
  mkWorld (clock w) (rand_src w) (slept w) (metrics w) r (congestion w).
Definition set_congestion (s : CongestionState.t) (w : World) : World :=
  mkWorld (clock w) (rand_src w) (slept w) (metrics w) (registry w) s.

(** A call either returns or panics; both leave a world behind. *)
Inductive Outcome (A : Type) :=
| Returned (a : A) (w : World)
| Panicked (msg : string) (w : World).
Arguments Returned {A} a w.
Arguments Panicked {A} msg w.

Definition M (A : Type) : Type := World -> Outcome A.

Definition ret {A} (a : A) : M A := fun w => Returned a w.

Definition bind {A B} (c : M A) (k : A -> M B) : M B :=
  fun w =>
    match c w with
    | Returned a w' => k a w'
    | Panicked msg w' => Panicked msg w'
    end.

Definition panic {A} (msg : string) : M A := fun w => Panicked msg w.

Notation "'let*' x ':=' c 'in' k" := (bind c (fun x => k))
  (at level 10, x name, c at level 100, k at level 200).

(** The world left behind, whichever way the call ended. *)
Definition world_of {A} (o : Outcome A) : World :=
  match o with
  | Returned _ w => w
  | Panicked _ w => w
  end.

(** The panic of a nil pointer or nil interface dereference. *)
Definition nil_dereference : string :=
  "runtime error: invalid memory address or nil pointer dereference".

(** ** Library calls used by the stages *)

(** [time.Now()] and [time.Since(t)], read off the process clock. *)
Definition time_Now : M Z := fun w => Returned (clock w) w.
Definition time_Since (t : Z) : M Z := fun w => Returned (clock w - t) w.

(** [time.Sleep(d)]: returns at once when [d <= 0], otherwise after [d]. *)
Definition time_Sleep (d : Z) : M unit :=
  fun w => Returned tt (set_clock (clock w + Z.max 0 d) (set_slept (slept w ++ [d]) w)).

(** [rand.Intn(n)]: panics when [n <= 0], otherwise a number in [[0, n)]. *)
Definition rand_Intn (n : Z) : M Z :=
  fun w =>
    if n <=? 0 then Panicked "invalid argument to Intn" w
    else match rand_src w with
         | [] => Returned 0 w
         | x :: rest => Returned (x mod n) (set_rand_src rest w)
         end.

(** [Duration.Milliseconds()]: integer division that truncates. *)
Definition Milliseconds (d : Z) : Z := Z.quot d 1000000.

(** A [*prometheus.CounterVec]: its name and its label names.  The values
    live in the world; they are [float64] in Go and stay whole numbers
    here, which is exact below 2^53. *)
Record CounterVec := { Name : string; labelNames : list string }.

(** [c.WithLabelValues(lvs...)]: the counter of these label values; panics
    when the number of values is not the number of label names. *)
Definition WithLabelValues (c : CounterVec) (lvs : list string)
  : M (string * list string) :=
  if Nat.eqb (length lvs) (length (labelNames c)) then ret (Name c, lvs)
  else panic "inconsistent label cardinality".

Definition counter_value (key : string * list string) (w : World) : Z :=
  default 0 (metrics w !! key).

(** The values after [v] has been added to the counter [key]; a counter
    that was never touched counts as zero. *)
Definition add_to (key : string * list string) (v : Z)
    (m : gmap (string * list string) Z) : gmap (string * list string) Z :=
  <[key := default 0 (m !! key) + v]> m.

(** [counter.Add(v)]: panics when [v < 0]. *)
Definition Counter_Add (key : string * list string) (v : Z) : M unit :=
  fun w =>
    if v <? 0 then Panicked "counter cannot decrease in value" w
    else Returned tt (set_metrics (add_to key v (metrics w)) w).

(** [counter.Inc()]. *)
Definition Counter_Inc (key : string * list string) : M unit :=
  fun w => Returned tt (set_metrics (add_to key 1 (metrics w)) w).

(** A [*prometheus.Registry] that is not nil; what it holds is in the world. *)
Definition Registry : Type := unit.

(** [reg.MustRegister(cs...)] on a [*prometheus.Registry]: panics on a nil
    registry and on a name registered before. *)
Fixpoint MustRegister (reg : option Registry) (cs : list CounterVec) : M unit :=
  match cs with
  | [] => ret tt
  | c :: rest =>
      fun w =>
        match reg with
        | None => Panicked nil_dereference w
        | Some _ =>
            if bool_decide (Name c ∈ registry w)
            then Panicked "duplicate metrics collector registration attempted" w
            else MustRegister reg rest (set_registry ({[Name c]} ∪ registry w) w)
        end
  end.

(** ** The request model *)

(** A [context.Context]; no stage looks inside it. *)
Definition context : Type := nat.

(** A [*http.Request] as far as the stages see it. *)
Record httpRequest := { req_Method : string; req_URL : string }.

(** An [http.ResponseWriter], named by the connection it writes to;
    [None] is the nil interface. *)
Definition ResponseWriter : Type := option nat.

(** A non-nil [http.Handler]: its [ServeHTTP]. *)
Definition Handler : Type := ResponseWriter -> option httpRequest -> M unit.

(** [h.ServeHTTP(w, r)] on an interface value that may be nil. *)
Definition ServeHTTP (h : option Handler) (w : ResponseWriter)
    (r : option httpRequest) : M unit :=
  match h with
  | None => panic nil_dereference
  | Some f => f w r
  end.

Record QueryOptions := {
  DoNotAddThanosParams : bool;
  Deduplicate : bool;
  PartialResponse : bool;
  Method : string;
  MaxSourceResolution : string;
  Engine : string;
  HTTPHeaders : gmap string (list string)
}.

Module InstantRequest.
Record t := {
  next : option Handler;
  w : ResponseWriter;
  Base : option string;
  Query : string;
  Opts : QueryOptions;
  Time : Z
}.
End InstantRequest.

Module RangeRequest.
Record t := {
  next : option Handler;
  w : ResponseWriter;
  Base : option string;
  Query : string;
  Opts : QueryOptions;
  Start : Z;
  End' : Z;
  Step : Z
}.
End RangeRequest.

(** The interface every stage implements. *)
Module ThanosClient.
Record t := {
  QueryInstant : context -> InstantRequest.t -> M (option error);
  QueryRange : context -> RangeRequest.t -> M (option error)
}.
End ThanosClient.

(** ** Mocker *)

Module Mocker.
(** The stage of the unit tests: two functions supplied by the test. *)
Record t := {
  QueryInstantFunc : context -> InstantRequest.t -> M (option error);
  QueryRangeFunc : context -> RangeRequest.t -> M (option error)
}.

Definition QueryInstant (s : t) (ctx : context) (r : InstantRequest.t)
  : M (option error) := QueryInstantFunc s ctx r.

Definition QueryRange (s : t) (ctx : context) (r : RangeRequest.t)
  : M (option error) := QueryRangeFunc s ctx r.

Definition as_client (s : t) : ThanosClient.t :=
  {| ThanosClient.QueryInstant := QueryInstant s;
     ThanosClient.QueryRange := QueryRange s |}.
End Mocker.

(** ** Request encoding *)

Definition requestFromInstant (ctx : context) (req : InstantRequest.t)
  : option httpRequest * option error := (None, None).

Definition requestFromRange (ctx : context) (req : RangeRequest.t)
  : option httpRequest * option error := (None, None).

(** ** Exit *)

Module Exit.
Definition QueryInstant (ctx : context) (req : InstantRequest.t) : M (option error) :=
  let '(r, err) := requestFromInstant ctx req in
  match err with
  | Some e => ret (Some e)
  | None =>
      let* _ := ServeHTTP (InstantRequest.next req) (InstantRequest.w req) r in
      ret None
  end.

Definition QueryRange (ctx : context) (req : RangeRequest.t) : M (option error) :=
  let '(r, err) := requestFromRange ctx req in
  match err with
  | Some e => ret (Some e)
  | None =>
      let* _ := ServeHTTP (RangeRequest.next req) (RangeRequest.w req) r in
      ret None
  end.

Definition as_client : ThanosClient.t :=
  {| ThanosClient.QueryInstant := QueryInstant;
     ThanosClient.QueryRange := QueryRange |}.
End Exit.

(** ** Jitterer *)

Module Jitterer.
Record t := { delay : Z; client : ThanosClient.t }.

Definition NewJitterer (querier : ThanosClient.t) (delay : Z) : t :=
  {| delay := delay; client := querier |}.

Definition sleep (jq : t) : M unit :=
  if delay jq =? 0 then ret tt
  else
    let* jitter := rand_Intn (delay jq) in
    time_Sleep jitter.

Definition QueryInstant (jq : t) (ctx : context) (r : InstantRequest.t)
  : M (option error) :=
  let* _ := sleep jq in
  ThanosClient.QueryInstant (client jq) ctx r.

Definition QueryRange (jq : t) (ctx : context) (r : RangeRequest.t)
  : M (option error) :=
  let* _ := sleep jq in
  ThanosClient.QueryRange (client jq) ctx r.

Definition as_client (jq : t) : ThanosClient.t :=
  {| ThanosClient.QueryInstant := QueryInstant jq;
     ThanosClient.QueryRange := QueryRange jq |}.
End Jitterer.

(** ** Observer *)

Definition errCountMetric : string := "querymw_error_count".
Definition blockCountMetric : string := "querymw_block_count".
Definition reqCountMetric : string := "querymw_request_count".
Definition latencyMetric : string := "querymw_request_latency_ms".

Module Observer.
Record t := {
  now : M Z;
  since : Z -> M Z;
  client : ThanosClient.t;
  errCounter : CounterVec;
  blockCounter : CounterVec;
  reqCounter : CounterVec;
  latencyCounter : CounterVec
}.

(** The struct literal of [NewObserver]. *)
Definition literal (querier : ThanosClient.t) : t :=
  {| now := time_Now;
     since := time_Since;
     client := querier;
     errCounter := {| Name := errCountMetric; labelNames := ["query_type"%string] |};
     blockCounter := {| Name := blockCountMetric;
                        labelNames := ["query_type"%string; "mw_type"%string] |};
     reqCounter := {| Name := reqCountMetric; labelNames := ["query_type"%string] |};
     latencyCounter := {| Name := latencyMetric; labelNames := ["query_type"%string] |}
  |}.

Definition NewObserver (querier : ThanosClient.t) (reg : option Registry) : M t :=
  let o := literal querier in
  let* _ := MustRegister reg
              [errCounter o; blockCounter o; reqCounter o; latencyCounter o] in
  ret o.

(** [blocked.Type] on a pointer that may be nil. *)
Definition deref_Type (blocked : option RequestBlockedError) : M string :=
  match blocked with
  | None => panic nil_dereference
  | Some b => ret (Type' b)
  end.

Definition handleMetrics (o : t) (err : option error) (start : Z)
    (queryType : string) : M unit :=
  let* _ :=
    match err with
    | Some e =>
        let blocked : option RequestBlockedError := None in
        let '(matched, blocked) := errors_As e blocked in
        if negb matched then
          let* ty := deref_Type blocked in
          let* c := WithLabelValues (blockCounter o) [queryType; ty] in
          Counter_Inc c
        else
          let* c := WithLabelValues (errCounter o) [queryType] in
          Counter_Inc c
    | None => ret tt
    end in
  let* c := WithLabelValues (reqCounter o) [queryType] in
  let* _ := Counter_Inc c in
  let* c := WithLabelValues (latencyCounter o) [queryType] in
  let* d := since o start in
  Counter_Add c (Milliseconds d).

Definition QueryInstant (o : t) (ctx : context) (r : InstantRequest.t)
  : M (option error) :=
  let* start := now o in
  let* err := ThanosClient.QueryInstant (client o) ctx r in
  let* _ := handleMetrics o err start "instant" in
  ret err.

Definition QueryRange (o : t) (ctx : context) (r : RangeRequest.t)
  : M (option error) :=
  let* start := now o in
  let* err := ThanosClient.QueryRange (client o) ctx r in
  let* _ := handleMetrics o err start "range" in
  ret err.

Definition as_client (o : t) : ThanosClient.t :=
  {| ThanosClient.QueryInstant := QueryInstant o;
     ThanosClient.QueryRange := QueryRange o |}.
End Observer.

(** ** Backpressure *)

Module Backpressure.
(** Modelled from the spec: the controller (its source file) is not among
    the sources, only its test is.  The definitions below follow section 4.E
    of the spec, "Admission discipline", step by step.  The health probe
    runs in a goroutine of its own and is not part of a request; it is left out. *)
Record t := {
  client : ThanosClient.t;
  queries : list string;
  monitoringURL : string
}.

(** Modelled from the spec: the error of a refused admission,
    [RequestBlockedError{Type:"backpressure"}]. *)
Definition blocked : error := blockedPtr (Some {| Type' := "backpressure" |}).

(** Modelled from the spec: steps 1 and 2, under the mutex.  If
    [active >= watermark] the request is refused and nothing changes;
    otherwise [active] goes up by one. *)
Definition enter : M bool :=
  fun w =>
    let s := congestion w in
    if CongestionState.active s >=? CongestionState.watermark s
    then Returned false w
    else Returned true
           (set_congestion
              (CongestionState.mk (CongestionState.min s) (CongestionState.max s)
                 (CongestionState.watermark s) (CongestionState.active s + 1)) w).

(** Modelled from the spec: the window adjustment of step 3. *)
Definition adjust (s : CongestionState.t) (err : option error) : Z :=
  match err with
  | None => Z.min (CongestionState.max s) (CongestionState.watermark s + 1)
  | Some _ => Z.max (CongestionState.min s) (CongestionState.watermark s / 2)
  end.

(** Modelled from the spec: step 3, under the mutex again: [active] goes
    down by one, then the window is adjusted. *)
Definition complete (err : option error) : M unit :=
  fun w =>
    let s := congestion w in
    Returned tt
      (set_congestion
         (CongestionState.mk (CongestionState.min s) (CongestionState.max s)
            (adjust s err) (CongestionState.active s - 1)) w).

(** Modelled from the spec: one request through the controller.  The error of the
    delegated call is handed back as it is.  A panic of the delegated call
    goes up as a panic; the spec does not say what the controller does
    then, and the model leaves its state as it was at the panic. *)
Definition through (call : M (option error)) : M (option error) :=
  let* entered := enter in
  if entered then
    let* err := call in
    let* _ := complete err in
    ret err
  else ret (Some blocked).

Definition QueryInstant (b : t) (ctx : context) (r : InstantRequest.t)
  : M (option error) :=
  through (ThanosClient.QueryInstant (client b) ctx r).

Definition QueryRange (b : t) (ctx : context) (r : RangeRequest.t)
  : M (option error) :=
  through (ThanosClient.QueryRange (client b) ctx r).

Definition as_client (b : t) : ThanosClient.t :=
  {| ThanosClient.QueryInstant := QueryInstant b;
     ThanosClient.QueryRange := QueryRange b |}.

(** Modelled from the spec: the constructor.  The spec starts the window at
    [max]; [TestBackpressureEdgeCases] builds a controller with [min = 1],
    [max = 10] and reads [watermark = 6] after five successes, so the
    repository starts it at [min], and so does the model. *)
Definition NewBackpressure (querier : ThanosClient.t) (min max : Z)
    (queries : list string)
    (monitoringURL : string) : M t :=
  fun w =>
    Returned {| client := querier; queries := queries; monitoringURL := monitoringURL |}
      (set_congestion (CongestionState.mk min max min 0) w).
End Backpressure.

(** ** Requests of either kind, one after the other *)

Inductive request :=
| Instant (r : InstantRequest.t)
| Range (r : RangeRequest.t).

Definition query (c : ThanosClient.t) (ctx : context) (req : request)
  : M (option error) :=
  match req with
  | Instant r => ThanosClient.QueryInstant c ctx r
  | Range r => ThanosClient.QueryRange c ctx r
  end.

(** The [query_type] label the Observer gives to each kind. *)
Definition query_type (req : request) : string :=
  match req with
  | Instant _ => "instant"
  | Range _ => "range"
  end.

(** The requests of [reqs], each started after the one before it is done. *)
Fixpoint serve (c : ThanosClient.t) (ctx : context) (reqs : list request)
  : M (list (option error)) :=
  match reqs with
  | [] => ret []
  | req :: rest =>
      let* err := query c ctx req in
      let* errs := serve c ctx rest in
      ret (err :: errs)
  end.

(** ** Configuration *)

Module Config.
Record t := {
  EnableBackpressure : bool;
  BackpressureMonitoringURL : string;
  BackpressureQueries : list string;
  CongestionWindowMin : Z;
  CongestionWindowMax : Z;
  EnableJitter : bool;
  JitterDelay : Z;
  EnableObserver : bool;
  ObserverRegistry : option Registry
}.
End Config.

Record Entry := { client : ThanosClient.t }.

Section Construction.
(** [parser.ParseExpr] and [url.Parse], reduced to the error they return. *)
Variable ParseExpr : string -> option error.
Variable url_Parse : string -> option error.

(** The loop over the health queries: the first parse error ends it. *)
Fixpoint first_parse_error (qs : list string) : option error :=
  match qs with
  | [] => None
  | q :: rest =>
      match ParseExpr q with
      | Some err => Some err
      | None => first_parse_error rest
      end
  end.

Definition Validate (c : Config.t) : option error :=
  if Config.EnableJitter c && (Config.JitterDelay c =? 0)
  then Some (sentinel ErrJitterDelayRequired)
  else
    let backpressure : option error :=
      if Config.EnableBackpressure c then
        if Nat.eqb (length (Config.BackpressureQueries c)) 0
        then Some (sentinel ErrBackpressureQueryRequired)
        else
          match first_parse_error (Config.BackpressureQueries c) with
          | Some err => Some err
          | None =>
              if String.eqb (Config.BackpressureMonitoringURL c) EmptyString
              then Some (sentinel ErrBackpressureURLRequired)
              else
                match url_Parse (Config.BackpressureMonitoringURL c) with
                | Some err => Some err
                | None =>
                    if Config.CongestionWindowMin c <? 1
                    then Some (sentinel ErrCongestionWindowMinBelowOne)
                    else if Config.CongestionWindowMax c <? Config.CongestionWindowMin c
                    then Some (sentinel ErrCongestionWindowMaxBelowMin)
                    else None
                end
          end
      else None in
    match backpressure with
    | Some err => Some err
    | None =>
        if Config.EnableObserver c
           && match Config.ObserverRegistry c with None => true | Some _ => false end
        then Some (sentinel ErrRegistryRequired)
        else None
    end.

Definition NewMiddlewareFromConfig (cfg : Config.t) : M (option Entry * option error) :=
  match Validate cfg with
  | Some err => ret (None, Some err)
  | None =>
      let querier := Exit.as_client in
      let* querier :=
        if Config.EnableBackpressure cfg then
          let* b := Backpressure.NewBackpressure querier (Config.CongestionWindowMin cfg)
                      (Config.CongestionWindowMax cfg) (Config.BackpressureQueries cfg)
                      (Config.BackpressureMonitoringURL cfg) in
          ret (Backpressure.as_client b)
        else ret querier in
      let querier :=
        if Config.EnableJitter cfg
        then Jitterer.as_client (Jitterer.NewJitterer querier (Config.JitterDelay cfg))
        else querier in
      let* querier :=
        if Config.EnableObserver cfg then
          let* o := Observer.NewObserver querier (Config.ObserverRegistry cfg) in
          ret (Observer.as_client o)
        else ret querier in
      ret (Some {| client := querier |}, None)
  end.
End Construction.

(** ** QueryOptions.AddTo *)

(** [strconv.FormatBool]. *)
Definition FormatBool (b : bool) : string := if b then "true" else "false".

(** [url.Values.Add] on a map that is not nil: appends to the values of
    the key. *)
Definition Values_Add (key value : string) (v : gmap string (list string))
  : gmap string (list string) :=
  <[key := default [] (v !! key) ++ [value]]> v.

(** [AddTo] changes the map it is given and returns a nil error; the result
    is the map after the call and that error.  [values] is a map that is
    not nil (adding to a nil map panics in Go). *)
Definition AddTo (p : QueryOptions) (values : gmap string (list string))
  : gmap string (list string) * option error :=
  let values := Values_Add "dedup" (FormatBool (Deduplicate p)) values in
  let values :=
    if negb (String.eqb (MaxSourceResolution p) EmptyString)
    then Values_Add "max_source_resolution" (MaxSourceResolution p) values
    else values in
  let values := Values_Add "engine" (Engine p) values in
  let values := Values_Add "partial_response" (FormatBool (PartialResponse p)) values in
  (values, None).

(** ** The strict router *)

(** [strings.HasPrefix(s, prefix)]. *)
Definition HasPrefix (s prefix : string) : bool := String.prefix prefix s.

(** [strings.HasSuffix(s, suffix)]:
    [len(s) >= len(suffix) && s[len(s)-len(suffix):] == suffix]. *)
Definition HasSuffix (s suffix : string) : bool :=
  Nat.leb (String.length suffix) (String.length s)
  && String.eqb
       (substring (String.length s - String.length suffix) (String.length suffix) s)
       suffix.

(** [strings.TrimSuffix(s, suffix)]. *)
Definition TrimSuffix (s suffix : string) : string :=
  if HasSuffix s suffix
  then substring 0 (String.length s - String.length suffix) s
  else s.

Module strictMux.
(** The wrapped mux is an interface; of it the model keeps the calls of
    its [Handle], oldest first, and nothing of what it does with them (an
    [http.ServeMux] panics on a pattern it already has).  [seen] is the map
    used as a set. *)
Record t (H : Type) := {
  mux : list (string * H);
  seen : gset string
}.
Arguments mux {H} _.
Arguments seen {H} _.

(** [newStrictMux(m)]: nothing seen, nothing handed to [m] yet. *)
Definition newStrictMux {H : Type} : t H := {| mux := []; seen := ∅ |}.

(** The two errors of [Handle], by their arguments. *)
Inductive HandleError :=
| AlreadyRegistered (sanitized : string)
| SharesRegistered (p sanitized : string).

(** The loop at the head of [Handle]:
    [for next := TrimSuffix(sanitized, "/"); next != sanitized; sanitized = next {}].
    [next] is computed once, in the init statement; after the first
    round [sanitized] equals [next] and the loop ends. *)
Definition sanitize (pattern : string) : string :=
  let sanitized := pattern in
  let next := TrimSuffix sanitized "/" in
  if negb (String.eqb next sanitized) then next else sanitized.

(** The range over [seen].  Go visits the keys of a map in no fixed order;
    the model visits them as [elements] lists them.  Which key the error
    names may differ, whether there is an error does not. *)
Definition shared_with (sanitized : string) (seen : gset string) : option string :=
  List.find (fun p => HasPrefix (sanitized +:+ "/") (p +:+ "/")) (elements seen).

Definition Handle {H : Type} (s : t H) (pattern : string) (handler : H)
  : option HandleError * t H :=
  let sanitized := sanitize pattern in
  if bool_decide (sanitized ∈ seen s) then (Some (AlreadyRegistered sanitized), s)
  else
    match shared_with sanitized (seen s) with
    | Some p => (Some (SharesRegistered p sanitized), s)
    | None =>
        (None,
         {| mux := mux s ++ [(sanitized, handler); (sanitized +:+ "/", handler)];
            seen := {[sanitized]} ∪ seen s |})
    end.
End strictMux.

(** [q] is a subpath of [p] under prefixing delimited by a slash: [q] is
    [p], or [p] followed by a slash and more. *)
Definition subpath (q p : string) : Prop :=
  q = p \/ exists rest, q = p +:+ "/" +:+ rest.

(** Two patterns overlap when either is a subpath of the other once both
    are sanitized. *)
Definition overlap (p q : string) : Prop :=
  subpath (strictMux.sanitize p) (strictMux.sanitize q) \/
  subpath (strictMux.sanitize q) (strictMux.sanitize p).

(** ** Values of the unit tests *)

Definition no_options : QueryOptions :=
  {| DoNotAddThanosParams := false; Deduplicate := false; PartialResponse := false;
     Method := EmptyString; MaxSourceResolution := EmptyString;
     Engine := EmptyString; HTTPHeaders := ∅ |}.

(** [InstantRequest{}] and [RangeRequest{}]. *)
Definition zero_instant : InstantRequest.t :=
  {| InstantRequest.next := None; InstantRequest.w := None;
     InstantRequest.Base := None; InstantRequest.Query := EmptyString;
     InstantRequest.Opts := no_options; InstantRequest.Time := 0 |}.

Definition zero_range : RangeRequest.t :=
  {| RangeRequest.next := None; RangeRequest.w := None;
     RangeRequest.Base := None; RangeRequest.Query := EmptyString;
     RangeRequest.Opts := no_options; RangeRequest.Start := 0;
     RangeRequest.End' := 0; RangeRequest.Step := 0 |}.

(** The mock of [TestBackpressureEdgeCases]: instant queries succeed, range
    queries fail. *)
Definition test_client : ThanosClient.t :=
  Mocker.as_client
    {| Mocker.QueryInstantFunc := fun _ _ => ret None;
       Mocker.QueryRangeFunc := fun _ _ => ret (Some (errorString "fail")) |}.

(** A mock whose queries all succeed, and one whose queries all fail. *)
Definition ok_client : ThanosClient.t :=
  Mocker.as_client
    {| Mocker.QueryInstantFunc := fun _ _ => ret None;
       Mocker.QueryRangeFunc := fun _ _ => ret None |}.

Definition failing_client : ThanosClient.t :=
  Mocker.as_client
    {| Mocker.QueryInstantFunc := fun _ _ => ret (Some (errorString "fail"));
       Mocker.QueryRangeFunc := fun _ _ => ret (Some (errorString "fail")) |}.

(** A world with the given controller state and nothing else. *)
Definition world_with (s : CongestionState.t) : World :=
  mkWorld 0 [] [] ∅ ∅ s.

Definition fresh_world : World := world_with (CongestionState.mk 0 0 0 0).

(** The set-up of the controller tests: a controller between 1 and 10
    around the mock, then the requests in turn. *)
Definition run_test (reqs : list request) : Outcome (list (option error)) :=
  (let* b := Backpressure.NewBackpressure test_client 1 10 [] EmptyString in
   serve (Backpressure.as_client b) 0%nat reqs) fresh_world.

(** Scenario S5 of the spec: [watermark = 1], one request in flight, and a
    second instant query through a fresh Observer around the controller. *)
Definition scenario_S5 : Outcome (option error) :=
  Observer.QueryInstant
    (Observer.literal
       (Backpressure.as_client
          {| Backpressure.client := ok_client; Backpressure.queries := [];
             Backpressure.monitoringURL := EmptyString |}))
    0%nat zero_instant (world_with (CongestionState.mk 1 10 1 1)).

(** A handler that returns without doing anything. *)
Definition idle_handler : Handler := fun _ _ => ret tt.

(** The configuration of [-enable-jitter -jitter-delay=d], every other
    stage off. *)
Definition jitter_only (d : Z) : Config.t :=
  {| Config.EnableBackpressure := false;
     Config.BackpressureMonitoringURL := EmptyString;
     Config.BackpressureQueries := [EmptyString];
     Config.CongestionWindowMin := 0;
     Config.CongestionWindowMax := 0;
     Config.EnableJitter := true;
     Config.JitterDelay := d;
     Config.EnableObserver := false;
     Config.ObserverRegistry := Some tt |}.

(** Options with a method and a header set, and no source resolution. *)
Definition post_options : QueryOptions :=
  {| DoNotAddThanosParams := false; Deduplicate := true; PartialResponse := false;
     Method := "POST"; MaxSourceResolution := EmptyString; Engine := "thanos";
     HTTPHeaders := {[ "X-Scope" := ["a"%string] ]} |}.

(** ** The default pipeline and request decoding *)

Definition NewDefaultThanosMiddleware : Entry := {| client := Exit.as_client |}.

(** The decoders keep the handler and the writer and nothing of the HTTP
    request: every other field is the zero value of its type. *)
Definition instantFromRequest (next : option Handler) (w : ResponseWriter)
    (r : option httpRequest) : InstantRequest.t * option error :=
  ({| InstantRequest.next := next; InstantRequest.w := w;
      InstantRequest.Base := None; InstantRequest.Query := EmptyString;
      InstantRequest.Opts := no_options; InstantRequest.Time := 0 |}, None).

Definition rangeFromRequest (next : option Handler) (w : ResponseWriter)
    (r : option httpRequest) : RangeRequest.t * option error :=
  ({| RangeRequest.next := next; RangeRequest.w := w;
      RangeRequest.Base := None; RangeRequest.Query := EmptyString;
      RangeRequest.Opts := no_options; RangeRequest.Start := 0;
      RangeRequest.End' := 0; RangeRequest.Step := 0 |}, None).

(** ** Routes *)

(** The handlers [NewRoutes] registers, by what they are. *)
Inductive route :=
| InstantProxy
| RangeProxy
| passthrough
| healthz.

Record options := {
  passthroughPaths : list string;
  registerer : option Registry
}.

(** An [Option]: what its [apply] does to the options. *)
Definition Option : Type := options -> options.

Definition WithPrometheusRegistry (reg : option Registry) : Option :=
  fun o => {| passthroughPaths := passthroughPaths o; registerer := reg |}.

Definition WithPassthroughPaths (paths : list string) : Option :=
  fun o => {| passthroughPaths := paths; registerer := registerer o |}.

(** [opt := options{}; for _, o := range opts { o.apply(&opt) }]. *)
Definition apply_options (opts : list Option) : options :=
  fold_left (fun opt o => o opt) opts {| passthroughPaths := []; registerer := None |}.

(** The errors of [NewRoutes]: the collected errors of the fixed routes,
    the two errors of the validation of a path, and the error of [Handle]
    for a path. *)
Inductive RoutesError :=
| MultiError (errs : list strictMux.HandleError)
| NotAValidURIPath (path : string)
| PathNotAllowed (path : string)
| PathNotHandled (e : strictMux.HandleError).

(** The routes every proxy has, in the order of their registration. *)
Definition fixed_routes : list (string * route) :=
  [ ("/api/v1/query"%string, InstantProxy);
    ("/api/v1/query_range"%string, RangeProxy);
    ("/federate"%string, passthrough);
    ("/graph"%string, passthrough);
    ("/ui"%string, passthrough);
    ("/api/v1/alerts"%string, passthrough);
    ("/api/v1/rules"%string, passthrough);
    ("/api/v1/series"%string, passthrough);
    ("/api/v1/query_exemplars"%string, passthrough);
    ("/healthz"%string, healthz) ].

(** [merrors.New(mux.Handle(..), ..)] and [errs.Add(mux.Handle(..))]: every
    [Handle] is called, in order; the errors that are not nil are kept. *)
Fixpoint handle_all (s : strictMux.t route) (rs : list (string * route))
  : list strictMux.HandleError * strictMux.t route :=
  match rs with
  | [] => ([], s)
  | (pattern, handler) :: rest =>
      let '(err, s1) := strictMux.Handle s pattern handler in
      let '(errs, s2) := handle_all s1 rest in
      (match err with Some e => e :: errs | None => errs end, s2)
  end.

(** The loop that registers the passthrough paths: the first error ends it. *)
Fixpoint handle_paths (s : strictMux.t route) (paths : list string)
  : option strictMux.HandleError * strictMux.t route :=
  match paths with
  | [] => (None, s)
  | path :: rest =>
      match strictMux.Handle s path passthrough with
      | (Some e, s1) => (Some e, s1)
      | (None, s1) => handle_paths s1 rest
      end
  end.

Record routes := {
  upstream : string;
  mux : strictMux.t route;
  mw : Entry
}.

Section Routes.
(** [url.Parse(s)], reduced to the [Path] of the URL it returns; [None]
    when it returns an error. *)
Variable url_Parse_Path : string -> option string.

(** The loop that validates the passthrough paths. *)
Fixpoint validate_paths (paths : list string) : option RoutesError :=
  match paths with
  | [] => None
  | path :: rest =>
      match url_Parse_Path ("http://example.com" +:+ path) with
      | None => Some (NotAValidURIPath path)
      | Some u_Path =>
          if negb (String.eqb u_Path path) then Some (NotAValidURIPath path)
          else if String.eqb u_Path EmptyString || String.eqb u_Path "/"
          then Some (PathNotAllowed u_Path)
          else validate_paths rest
      end
  end.

Definition NewRoutes (mw : Entry) (upstream : string) (opts : list Option)
  : routes + RoutesError :=
  let opt := apply_options opts in
  let '(errs, mux) := handle_all strictMux.newStrictMux fixed_routes in
  match errs with
  | _ :: _ => inr (MultiError errs)
  | [] =>
      match validate_paths (passthroughPaths opt) with
      | Some err => inr err
      | None =>
          match handle_paths mux (passthroughPaths opt) with
          | (Some e, _) => inr (PathNotHandled e)
          | (None, mux) => inl {| upstream := upstream; mux := mux; mw := mw |}
          end
      end
  end.
End Routes.

(** The patterns a sequence of [Handle] calls is given, with the router
    after the last of them and the result of each call. *)
Fixpoint handle_each {H : Type} (s : strictMux.t H) (calls : list (string * H))
  : list (option strictMux.HandleError) * strictMux.t H :=
  match calls with
  | [] => ([], s)
  | (pattern, handler) :: rest =>
      let '(err, s1) := strictMux.Handle s pattern handler in
      let '(errs, s2) := handle_each s1 rest in
      (err :: errs, s2)
  end.

(** For the examples: [url.Parse] on a URL whose path has no escape, query
    or fragment; the path is what follows the host. *)
Definition plain_path (s : string) : option string :=
  Some (substring 18 (String.length s) s).

(** For the examples: a parser that refuses the empty query only. *)
Definition refuse_empty (q : string) : option error :=
  if String.eqb q EmptyString then Some (errorString "no expression found in input")
  else None.

(** What an accepted call hands to the wrapped mux. *)
Definition handed {H : Type} (call : string * H) : list (string * H) :=
  [(strictMux.sanitize (fst call), snd call);
   (strictMux.sanitize (fst call) +:+ "/", snd call)].

(** The calls of a sequence that returned no error. *)
Fixpoint accepted {H : Type} (errs : list (option strictMux.HandleError))
    (calls : list (string * H)) : list (string * H) :=
  match errs, calls with
  | None :: errs, call :: calls => call :: accepted errs calls
  | Some _ :: errs, _ :: calls => accepted errs calls
  | _, _ => []
  end.

(** ** The flags of [main] *)

(** [strings.Split(s, sep)] for a separator of one byte. *)
Fixpoint Split (s : string) (sep : Ascii.ascii) : list string :=
  match s with
  | EmptyString => [EmptyString]
  | String c rest =>
      match Split rest sep with
      | [] => []
      | piece :: pieces =>
          if Ascii.eqb c sep then EmptyString :: piece :: pieces
          else String c piece :: pieces
      end
  end.

(** The flags [main] reads, as far as the middleware sees them. *)
Record flags := {
  unsafePassthroughPaths : string;
  enableBackpressure : bool;
  backpressureMonitoringURL : string;
  backpressureQueries : string;
  congestionWindowMin : Z;
  congestionWindowMax : Z;
  enableJitter : bool;
  jitterDelay : Z;
  enableObserver : bool
}.

(** The [querymw.Config] literal of [main]; [reg] is the registry [main]
    has just made. *)
Definition main_config (f : flags) (reg : Registry) : Config.t :=
  {| Config.EnableBackpressure := enableBackpressure f;
     Config.BackpressureMonitoringURL := backpressureMonitoringURL f;
     Config.BackpressureQueries := Split (backpressureQueries f) "010"%char;
     Config.CongestionWindowMin := congestionWindowMin f;
     Config.CongestionWindowMax := congestionWindowMax f;
     Config.EnableJitter := enableJitter f;
     Config.JitterDelay := jitterDelay f;
     Config.EnableObserver := enableObserver f;
     Config.ObserverRegistry := Some reg |}.

(** The options [main] hands to [NewRoutes]. *)
Definition main_options (f : flags) (reg : Registry) : list Option :=
  let opts := [WithPrometheusRegistry (Some reg)] in
  if Nat.ltb 0 (String.length (unsafePassthroughPaths f))
  then opts ++ [WithPassthroughPaths (Split (unsafePassthroughPaths f) ","%char)]
  else opts.

(** * Properties *)

(** ** The monad *)

Lemma bind_Returned {A B} (c : M A) (k : A -> M B) w a w' :
  c w = Returned a w' -> bind c k w = k a w'.
Proof. intros Hc. unfold bind. now rewrite Hc. Qed.

Lemma bind_Panicked {A B} (c : M A) (k : A -> M B) w msg w' :
  c w = Panicked msg w' -> bind c k w = Panicked msg w'.
Proof. intros Hc. unfold bind. now rewrite Hc. Qed.

Lemma bind_ret {A B} (a : A) (k : A -> M B) w : bind (ret a) k w = k a w.
Proof. reflexivity. Qed.

(** ** Errors *)

(** When [errors.As] finds no [*RequestBlockedError], the target keeps the
    nil it was declared with. *)
Lemma errors_As_unmatched err target :
  fst (errors_As err target) = false -> snd (errors_As err target) = target.
Proof.
  induction err as [msg | e | p | msg inner IH]; simpl; intros Hm;
    try reflexivity; try discriminate.
  now apply IH.
Qed.

(** ** Jitterer *)

(** C8. With a delay of zero the Jitterer does not sleep, draws no random
    number, and each of its two methods is the method of the wrapped stage:
    same result, same world. *)
Theorem Jitterer_zero_delay_is_wrapped_stage
    (querier : ThanosClient.t) (ctx : context)
    (ri : InstantRequest.t) (rr : RangeRequest.t) (w : World) :
  let jq := Jitterer.NewJitterer querier 0 in
  Jitterer.sleep jq w = Returned tt w /\
  Jitterer.QueryInstant jq ctx ri w = ThanosClient.QueryInstant querier ctx ri w /\
  Jitterer.QueryRange jq ctx rr w = ThanosClient.QueryRange querier ctx rr w /\
  ThanosClient.QueryInstant (Jitterer.as_client jq) ctx ri w
    = ThanosClient.QueryInstant querier ctx ri w /\
  ThanosClient.QueryRange (Jitterer.as_client jq) ctx rr w
    = ThanosClient.QueryRange querier ctx rr w.
Proof.
  intros jq.
  assert (Hs : Jitterer.sleep jq w = Returned tt w) by reflexivity.
  repeat split; try exact Hs.
  all: cbn [Jitterer.as_client ThanosClient.QueryInstant ThanosClient.QueryRange];
    unfold Jitterer.QueryInstant, Jitterer.QueryRange;
    rewrite (bind_Returned _ _ _ _ _ Hs); reflexivity.
Qed.

(** ** Exit *)

(** C10. The two encoders return a nil request and a nil error, whatever
    they are given.  So [Exit] calls the handler of the request with a nil
    request and, when that call returns, returns nil; it never returns an
    error.  (A handler that panics, or a nil handler, makes [Exit] panic:
    that is not an error value.) *)
Theorem Exit_never_returns_an_error
    (ctx : context) (ri : InstantRequest.t) (rr : RangeRequest.t) (w : World) :
  requestFromInstant ctx ri = (None, None) /\
  requestFromRange ctx rr = (None, None) /\
  (forall w', ServeHTTP (InstantRequest.next ri) (InstantRequest.w ri) None w
                = Returned tt w' ->
              Exit.QueryInstant ctx ri w = Returned None w') /\
  (forall w', ServeHTTP (RangeRequest.next rr) (RangeRequest.w rr) None w
                = Returned tt w' ->
              Exit.QueryRange ctx rr w = Returned None w') /\
  (forall e w', Exit.QueryInstant ctx ri w <> Returned (Some e) w') /\
  (forall e w', Exit.QueryRange ctx rr w <> Returned (Some e) w').
Proof.
  repeat split; try reflexivity.
  - intros w' Hh. unfold Exit.QueryInstant. cbn [requestFromInstant].
    now rewrite (bind_Returned _ _ _ _ _ Hh).
  - intros w' Hh. unfold Exit.QueryRange. cbn [requestFromRange].
    now rewrite (bind_Returned _ _ _ _ _ Hh).
  - intros e w'. unfold Exit.QueryInstant, bind. cbn [requestFromInstant].
    destruct (ServeHTTP _ _ _ w); discriminate.
  - intros e w'. unfold Exit.QueryRange, bind. cbn [requestFromRange].
    destruct (ServeHTTP _ _ _ w); discriminate.
Qed.

(** The statement at a request whose handler returns at once. *)
Lemma Exit_never_returns_an_error_witness :
  let ri := {| InstantRequest.next := Some idle_handler; InstantRequest.w := Some 1%nat;
               InstantRequest.Base := None; InstantRequest.Query := "up";
               InstantRequest.Opts := no_options; InstantRequest.Time := 0 |} in
  ServeHTTP (InstantRequest.next ri) (InstantRequest.w ri) None fresh_world
    = Returned tt fresh_world /\
  Exit.QueryInstant 0%nat ri fresh_world = Returned None fresh_world.
Proof.
  intros ri. split; [reflexivity |].
  apply (Exit_never_returns_an_error 0%nat ri zero_range fresh_world).
  reflexivity.
Defined.

(** ** Observer *)

(** C9. For an error of the delegated call that [errors.As] does not match
    with [*RequestBlockedError], [handleMetrics] panics on the nil pointer
    [blocked] before it touches any counter: the world at the panic is the
    world it was called in, so neither the request count nor the latency
    has been updated.  [QueryInstant] and [QueryRange] then panic too. *)
Theorem handleMetrics_panics_on_plain_error
    (o : Observer.t) (err : error) (start : Z) (queryType : string) (w : World) :
  fst (errors_As err None) = false ->
  Observer.handleMetrics o (Some err) start queryType w = Panicked nil_dereference w /\
  (forall ctx r w0 w1,
      Observer.now o w0 = Returned start w1 ->
      ThanosClient.QueryInstant (Observer.client o) ctx r w1 = Returned (Some err) w ->
      Observer.QueryInstant o ctx r w0 = Panicked nil_dereference w) /\
  (forall ctx r w0 w1,
      Observer.now o w0 = Returned start w1 ->
      ThanosClient.QueryRange (Observer.client o) ctx r w1 = Returned (Some err) w ->
      Observer.QueryRange o ctx r w0 = Panicked nil_dereference w).
Proof.
  intros Hm.
  assert (Hh : forall qt, Observer.handleMetrics o (Some err) start qt w
                          = Panicked nil_dereference w).
  { intros qt. unfold Observer.handleMetrics.
    pose proof (errors_As_unmatched err None Hm) as Ht.
    destruct (errors_As err None) as [matched blocked]. simpl in Hm, Ht. subst.
    reflexivity. }
  split; [apply Hh |]. split.
  - intros ctx r w0 w1 Hnow Hcall. unfold Observer.QueryInstant.
    rewrite (bind_Returned _ _ _ _ _ Hnow), (bind_Returned _ _ _ _ _ Hcall).
    apply bind_Panicked, Hh.
  - intros ctx r w0 w1 Hnow Hcall. unfold Observer.QueryRange.
    rewrite (bind_Returned _ _ _ _ _ Hnow), (bind_Returned _ _ _ _ _ Hcall).
    apply bind_Panicked, Hh.
Qed.

(** The statement at the error of the failing mock. *)
Lemma handleMetrics_panics_on_plain_error_witness :
  fst (errors_As (errorString "fail") None) = false /\
  Observer.handleMetrics (Observer.literal failing_client)
    (Some (errorString "fail")) 0 "range" fresh_world
  = Panicked nil_dereference fresh_world.
Proof.
  split; [reflexivity |].
  apply (handleMetrics_panics_on_plain_error (Observer.literal failing_client)
           (errorString "fail") 0 "range" fresh_world).
  reflexivity.
Defined.

(** ** Backpressure *)

Section Admission.
Import CongestionState.

(** The controller runs the delegated call through [through], whatever the
    kind of the request. *)
Lemma query_Backpressure (b : Backpressure.t) ctx req :
  query (Backpressure.as_client b) ctx req
  = Backpressure.through (query (Backpressure.client b) ctx req).
Proof. destruct req; reflexivity. Qed.

(** The world right after an admission. *)
Lemma enter_open w :
  active (congestion w) < watermark (congestion w) ->
  Backpressure.enter w
  = Returned true
      (set_congestion
         (mk (min (congestion w)) (max (congestion w))
            (watermark (congestion w)) (active (congestion w) + 1)) w).
Proof.
  intros Hlt. unfold Backpressure.enter.
  rewrite Z.geb_leb. destruct (Z.leb_spec (watermark (congestion w)) (active (congestion w)));
    [lia | reflexivity].
Qed.

Lemma enter_closed w :
  active (congestion w) >= watermark (congestion w) ->
  Backpressure.enter w = Returned false w.
Proof.
  intros Hge. unfold Backpressure.enter.
  rewrite Z.geb_leb. destruct (Z.leb_spec (watermark (congestion w)) (active (congestion w)));
    [reflexivity | lia].
Qed.

(** A refused request: the delegated call is not run. *)
Lemma through_refused (call : M (option error)) w :
  active (congestion w) >= watermark (congestion w) ->
  Backpressure.through call w = Returned (Some Backpressure.blocked) w.
Proof.
  intros Hge. unfold Backpressure.through.
  now rewrite (bind_Returned _ _ _ _ _ (enter_closed w Hge)).
Qed.

(** An admitted request whose delegated call returns and leaves the
    controller alone: [active] is back where it was and the window has
    moved by the rule of the outcome. *)
Lemma through_entered (call : M (option error)) w err w1 :
  active (congestion w) < watermark (congestion w) ->
  call (set_congestion
          (mk (min (congestion w)) (max (congestion w))
             (watermark (congestion w)) (active (congestion w) + 1)) w)
    = Returned err w1 ->
  congestion w1
    = mk (min (congestion w)) (max (congestion w))
        (watermark (congestion w)) (active (congestion w) + 1) ->
  Backpressure.through call w
  = Returned err
      (set_congestion
         (mk (min (congestion w)) (max (congestion w))
            (Backpressure.adjust (congestion w) err) (active (congestion w))) w1).
Proof.
  intros Hlt Hcall Hframe. unfold Backpressure.through.
  rewrite (bind_Returned _ _ _ _ _ (enter_open w Hlt)). cbn beta iota.
  rewrite (bind_Returned _ _ _ _ _ Hcall).
  unfold bind, Backpressure.complete, ret. rewrite Hframe. cbn [min max watermark active].
  unfold Backpressure.adjust. cbn [min max watermark active].
  do 3 f_equal. lia.
Qed.

(** The success streak, by induction on the requests. *)
Lemma success_streak (b : Backpressure.t) ctx reqs :
  (forall req, In req reqs -> forall w0, exists w1,
       query (Backpressure.client b) ctx req w0 = Returned None w1 /\
       congestion w1 = congestion w0) ->
  forall w,
    0 < watermark (congestion w) <= max (congestion w) ->
    active (congestion w) = 0 ->
    exists w',
      serve (Backpressure.as_client b) ctx reqs w
        = Returned (repeat None (length reqs)) w' /\
      congestion w'
        = mk (min (congestion w)) (max (congestion w))
            (Z.min (max (congestion w))
               (watermark (congestion w) + Z.of_nat (length reqs))) 0.
Proof.
  induction reqs as [| req rest IH]; intros Hok w Hwm Hact.
  - exists w. split; [reflexivity |].
    cbn [length]. rewrite Z.add_0_r, Z.min_r by lia.
    rewrite <- Hact. now destruct (congestion w).
  - destruct (Hok req (or_introl eq_refl)
                (set_congestion
                   (mk (min (congestion w)) (max (congestion w))
                      (watermark (congestion w)) (active (congestion w) + 1)) w))
      as (w1 & Hcall & Hframe).
    assert (Hlt : active (congestion w) < watermark (congestion w)) by lia.
    pose proof (through_entered _ w None w1 Hlt Hcall Hframe) as Hstep.
    set (w2 := set_congestion _ w1) in Hstep.
    destruct (IH (fun r Hr => Hok r (or_intror Hr)) w2) as (w' & Hrest & Hfinal).
    + subst w2. cbn [congestion set_congestion min max watermark active Backpressure.adjust]. lia.
    + subst w2. cbn [congestion set_congestion active]. exact Hact.
    + exists w'. split.
      * cbn [serve]. rewrite query_Backpressure.
        rewrite (bind_Returned _ _ _ _ _ Hstep).
        now rewrite (bind_Returned _ _ _ _ _ Hrest).
      * rewrite Hfinal. subst w2.
        cbn [congestion set_congestion min max watermark active Backpressure.adjust length].
        f_equal. lia.
Qed.

(** Halving with a floor, [n] more times after the first. *)
Lemma halving_closed_form m a n :
  0 <= m -> 0 <= n ->
  Z.max m (Z.max m (a / 2) / 2 ^ n) = Z.max m (a / 2 ^ (n + 1)).
Proof.
  intros Hm Hn.
  assert (Hp : 0 < 2 ^ n) by (apply Z.pow_pos_nonneg; lia).
  replace (2 ^ (n + 1)) with (2 * 2 ^ n) by (rewrite Z.pow_add_r by lia; lia).
  rewrite <- Z.div_div by lia.
  destruct (Z.max_spec m (a / 2)) as [[Hlt ->] | [Hge ->]]; [reflexivity |].
  assert (m / 2 ^ n <= m).
  { apply Z.div_le_upper_bound; [lia | nia]. }
  assert (a / 2 / 2 ^ n <= m / 2 ^ n) by (apply Z.div_le_mono; lia).
  lia.
Qed.

(** The error streak, by induction on the requests. *)
Lemma error_streak (b : Backpressure.t) ctx reqs :
  (forall req, In req reqs -> forall w0, exists e w1,
       query (Backpressure.client b) ctx req w0 = Returned (Some e) w1 /\
       congestion w1 = congestion w0) ->
  forall w,
    1 <= min (congestion w) ->
    min (congestion w) <= watermark (congestion w) ->
    active (congestion w) = 0 ->
    exists errs w',
      serve (Backpressure.as_client b) ctx reqs w = Returned errs w' /\
      length errs = length reqs /\
      Forall (fun err => err <> None) errs /\
      congestion w'
        = mk (min (congestion w)) (max (congestion w))
            (Z.max (min (congestion w))
               (watermark (congestion w) / 2 ^ Z.of_nat (length reqs))) 0.
Proof.
  induction reqs as [| req rest IH]; intros Hfail w Hmin Hwm Hact.
  - exists [], w. repeat split; [constructor |].
    cbn [length]. change (2 ^ Z.of_nat 0) with 1. rewrite Z.div_1_r, Z.max_r by lia.
    rewrite <- Hact. now destruct (congestion w).
  - destruct (Hfail req (or_introl eq_refl)
                (set_congestion
                   (mk (min (congestion w)) (max (congestion w))
                      (watermark (congestion w)) (active (congestion w) + 1)) w))
      as (e & w1 & Hcall & Hframe).
    assert (Hlt : active (congestion w) < watermark (congestion w)) by lia.
    pose proof (through_entered _ w (Some e) w1 Hlt Hcall Hframe) as Hstep.
    set (w2 := set_congestion _ w1) in Hstep.
    destruct (IH (fun r Hr => Hfail r (or_intror Hr)) w2) as (errs & w' & Hrest & Hlen & Hall & Hfinal).
    + subst w2. cbn [congestion set_congestion min]. exact Hmin.
    + subst w2. cbn [congestion set_congestion min max watermark active Backpressure.adjust]. lia.
    + subst w2. cbn [congestion set_congestion active]. exact Hact.
    + exists (Some e :: errs), w'. repeat split.
      * cbn [serve]. rewrite query_Backpressure.
        rewrite (bind_Returned _ _ _ _ _ Hstep).
        now rewrite (bind_Returned _ _ _ _ _ Hrest).
      * cbn [length]. now rewrite Hlen.
      * constructor; [discriminate | exact Hall].
      * rewrite Hfinal. subst w2.
        cbn [congestion set_congestion min max watermark active Backpressure.adjust length].
        f_equal. rewrite Nat2Z.inj_succ, <- Z.add_1_r.
        apply halving_closed_form; lia.
Qed.
End Admission.

(** The controller of the model passes the checks of the repository's
    tests.  [TestBackpressureEdgeCases]: five instant queries leave 6, a
    failing range query leaves 3, four more leave 1. *)
Example TestBackpressureEdgeCases_five_successes :
  congestion (world_of (run_test (repeat (Instant zero_instant) 5)))
  = CongestionState.mk 1 10 6 0.
Proof. reflexivity. Qed.

Example TestBackpressureEdgeCases_one_failure :
  congestion (world_of (run_test (repeat (Instant zero_instant) 5 ++ [Range zero_range])))
  = CongestionState.mk 1 10 3 0.
Proof. reflexivity. Qed.

Example TestBackpressureEdgeCases_floor :
  congestion (world_of (run_test (repeat (Instant zero_instant) 5
                                    ++ repeat (Range zero_range) 5)))
  = CongestionState.mk 1 10 1 0.
Proof. reflexivity. Qed.

(** [TestBackpressureRaceCondition], whose three goroutines wait for each
    other: five successes, a failure, a success leave 4. *)
Example TestBackpressureRaceCondition_in_order :
  congestion (world_of (run_test (repeat (Instant zero_instant) 5
                                    ++ [Range zero_range; Instant zero_instant])))
  = CongestionState.mk 1 10 4 0.
Proof. reflexivity. Qed.

(** C1. Additive increase.  Take a controller with [1 <= min] whose window
    [w] lies between [min] and [max] and which has no request in flight.
    If the delegated call of each of [N] requests succeeds (and does not
    reach into the controller), the requests, served one after the other,
    all return nil and leave [watermark = min(max, w + N)] and
    [active = 0]; one request alone leaves [min(max, w + 1)]; the bounds
    are as before. *)
Theorem AIMD_additive_increase
    (b : Backpressure.t) (ctx : context) (reqs : list request) (w : World) :
  (forall req, In req reqs -> forall w0, exists w1,
       query (Backpressure.client b) ctx req w0 = Returned None w1 /\
       congestion w1 = congestion w0) ->
  1 <= CongestionState.min (congestion w) ->
  CongestionState.min (congestion w) <= CongestionState.watermark (congestion w)
    <= CongestionState.max (congestion w) ->
  CongestionState.active (congestion w) = 0 ->
  exists w',
    serve (Backpressure.as_client b) ctx reqs w
      = Returned (repeat None (length reqs)) w' /\
    CongestionState.watermark (congestion w')
      = Z.min (CongestionState.max (congestion w))
          (CongestionState.watermark (congestion w) + Z.of_nat (length reqs)) /\
    (length reqs = 1%nat ->
     CongestionState.watermark (congestion w')
       = Z.min (CongestionState.max (congestion w))
           (CongestionState.watermark (congestion w) + 1)) /\
    CongestionState.active (congestion w') = 0 /\
    CongestionState.min (congestion w') = CongestionState.min (congestion w) /\
    CongestionState.max (congestion w') = CongestionState.max (congestion w).
Proof.
  intros Hok Hmin Hwm Hact.
  destruct (success_streak b ctx reqs Hok w) as (w' & Hrun & Hfinal);
    [lia | exact Hact |].
  exists w'. rewrite Hfinal. repeat split; [exact Hrun |].
  intros ->. reflexivity.
Qed.

(** The statement at the first half of [TestBackpressureEdgeCases]: five
    instant queries from [watermark = 1] between 1 and 10 leave 6. *)
Lemma AIMD_additive_increase_witness :
  exists w',
    serve (Backpressure.as_client
             {| Backpressure.client := test_client; Backpressure.queries := [];
                Backpressure.monitoringURL := EmptyString |})
      0%nat (repeat (Instant zero_instant) 5)
      (world_with (CongestionState.mk 1 10 1 0))
    = Returned (repeat None 5) w' /\
    CongestionState.watermark (congestion w') = 6 /\
    CongestionState.active (congestion w') = 0.
Proof.
  destruct (AIMD_additive_increase
              {| Backpressure.client := test_client; Backpressure.queries := [];
                 Backpressure.monitoringURL := EmptyString |}
              0%nat (repeat (Instant zero_instant) 5)
              (world_with (CongestionState.mk 1 10 1 0)))
    as (w' & Hrun & Hwm & _ & Hact & _).
  - intros req Hin w0. exists w0.
    apply repeat_spec in Hin. subst req. split; reflexivity.
  - simpl. lia.
  - simpl. lia.
  - reflexivity.
  - exists w'. split; [exact Hrun |]. split; [exact Hwm | exact Hact].
Defined.

(** C2. Multiplicative decrease with a floor.  Take a controller with
    [1 <= min] whose window [w] lies between [min] and [max] and which has
    no request in flight.  If the delegated call of each of [N] requests
    returns an error (and does not reach into the controller), the
    requests, served one after the other, each return an error and leave
    [watermark = max(min, w / 2^N)], the window halved [N] times with
    [min] as the floor: it is never below [min], it is [min] as soon as
    [2^N > w], and one request alone leaves [max(min, w / 2)]. *)
Theorem AIMD_multiplicative_decrease
    (b : Backpressure.t) (ctx : context) (reqs : list request) (w : World) :
  (forall req, In req reqs -> forall w0, exists e w1,
       query (Backpressure.client b) ctx req w0 = Returned (Some e) w1 /\
       congestion w1 = congestion w0) ->
  1 <= CongestionState.min (congestion w) ->
  CongestionState.min (congestion w) <= CongestionState.watermark (congestion w)
    <= CongestionState.max (congestion w) ->
  CongestionState.active (congestion w) = 0 ->
  exists errs w',
    serve (Backpressure.as_client b) ctx reqs w = Returned errs w' /\
    length errs = length reqs /\
    Forall (fun err => err <> None) errs /\
    CongestionState.watermark (congestion w')
      = Z.max (CongestionState.min (congestion w))
          (CongestionState.watermark (congestion w) / 2 ^ Z.of_nat (length reqs)) /\
    CongestionState.min (congestion w) <= CongestionState.watermark (congestion w') /\
    (CongestionState.watermark (congestion w) < 2 ^ Z.of_nat (length reqs) ->
     CongestionState.watermark (congestion w') = CongestionState.min (congestion w)) /\
    (length reqs = 1%nat ->
     CongestionState.watermark (congestion w')
       = Z.max (CongestionState.min (congestion w))
           (CongestionState.watermark (congestion w) / 2)) /\
    CongestionState.active (congestion w') = 0 /\
    CongestionState.min (congestion w') = CongestionState.min (congestion w) /\
    CongestionState.max (congestion w') = CongestionState.max (congestion w).
Proof.
  intros Hfail Hmin Hwm Hact.
  destruct (error_streak b ctx reqs Hfail w) as (errs & w' & Hrun & Hlen & Hall & Hfinal);
    [exact Hmin | lia | exact Hact |].
  exists errs, w'. rewrite Hfinal. cbn [CongestionState.watermark CongestionState.min
    CongestionState.max CongestionState.active].
  repeat split; try assumption.
  - lia.
  - intros Hsmall. rewrite Z.div_small by lia. lia.
  - intros ->. reflexivity.
Qed.

(** The statement at the second half of [TestBackpressureEdgeCases]: five
    failing range queries from [watermark = 6] leave 1, the floor. *)
Lemma AIMD_multiplicative_decrease_witness :
  exists errs w',
    serve (Backpressure.as_client
             {| Backpressure.client := test_client; Backpressure.queries := [];
                Backpressure.monitoringURL := EmptyString |})
      0%nat (repeat (Range zero_range) 5)
      (world_with (CongestionState.mk 1 10 6 0))
    = Returned errs w' /\
    CongestionState.watermark (congestion w') = 1.
Proof.
  destruct (AIMD_multiplicative_decrease
              {| Backpressure.client := test_client; Backpressure.queries := [];
                 Backpressure.monitoringURL := EmptyString |}
              0%nat (repeat (Range zero_range) 5)
              (world_with (CongestionState.mk 1 10 6 0)))
    as (errs & w' & Hrun & _ & _ & Hwm & _).
  - intros req Hin w0. exists (errorString "fail"), w0.
    apply repeat_spec in Hin. subst req. split; reflexivity.
  - simpl. lia.
  - simpl. lia.
  - reflexivity.
  - exists errs, w'. split; [exact Hrun | exact Hwm].
Defined.

(** ** Counters *)

Lemma counter_add_to_same key v m :
  default 0 (add_to key v m !! key) = default 0 (m !! key) + v.
Proof. unfold add_to. now rewrite lookup_insert_eq. Qed.

Lemma counter_add_to_other key key' v m :
  key <> key' -> add_to key v m !! key' = m !! key'.
Proof. intros Hne. unfold add_to. now rewrite lookup_insert_ne. Qed.

(** ** What the stages in front of the controller do with an error *)

(** A delay that is not negative: [sleep] returns, and only the clock, the
    random source and the sleep log can have changed. *)
Lemma sleep_returns (jq : Jitterer.t) w :
  0 <= Jitterer.delay jq ->
  exists ws,
    Jitterer.sleep jq w = Returned tt ws /\
    congestion ws = congestion w /\
    metrics ws = metrics w /\
    clock w <= clock ws.
Proof.
  intros Hd. unfold Jitterer.sleep.
  destruct (Z.eqb_spec (Jitterer.delay jq) 0) as [Hz | Hnz].
  - exists w. repeat split. lia.
  - unfold bind, rand_Intn.
    destruct (Z.leb_spec (Jitterer.delay jq) 0) as [Hle | Hgt]; [lia |].
    destruct (rand_src w) as [| x rest]; eexists; (split; [reflexivity |]);
      cbn [congestion metrics clock set_clock set_slept set_rand_src]; repeat split; lia.
Qed.

(** What [handleMetrics] of a fresh Observer does with an error that
    [errors.As] matches with [*RequestBlockedError]: it counts an error, a
    request and the latency. *)
Lemma handleMetrics_matched (q : ThanosClient.t) e p start queryType w :
  errors_As e None = (true, p) ->
  start <= clock w ->
  Observer.handleMetrics (Observer.literal q) (Some e) start queryType w
  = Returned tt
      (set_metrics
         (add_to (latencyMetric, [queryType]) (Milliseconds (clock w - start))
            (add_to (reqCountMetric, [queryType]) 1
               (add_to (errCountMetric, [queryType]) 1 (metrics w)))) w).
Proof.
  intros Has Hclock. unfold Observer.handleMetrics. rewrite Has.
  cbn [negb Observer.literal Observer.errCounter Observer.reqCounter
       Observer.latencyCounter Observer.since].
  unfold bind, WithLabelValues, Counter_Inc, Counter_Add, time_Since, ret.
  cbn [length labelNames Name Nat.eqb metrics set_metrics clock].
  assert (Hms : 0 <= Milliseconds (clock w - start)).
  { unfold Milliseconds. apply Z.quot_pos; lia. }
  destruct (Z.ltb_spec (Milliseconds (clock w - start)) 0) as [Hneg | _]; [lia |].
  reflexivity.
Qed.

(** A fresh Observer hands back the error of a refusal as it got it. *)
Lemma Observer_hands_back (q : ThanosClient.t) ctx req w e p w1 :
  query q ctx req w = Returned (Some e) w1 ->
  errors_As e None = (true, p) ->
  clock w <= clock w1 ->
  query (Observer.as_client (Observer.literal q)) ctx req w
  = Returned (Some e)
      (set_metrics
         (add_to (latencyMetric, [query_type req]) (Milliseconds (clock w1 - clock w))
            (add_to (reqCountMetric, [query_type req]) 1
               (add_to (errCountMetric, [query_type req]) 1 (metrics w1)))) w1).
Proof.
  intros Hcall Has Hclock.
  pose proof (handleMetrics_matched q e p (clock w) (query_type req) w1 Has Hclock) as Hh.
  destruct req as [r | r];
    cbn [query Observer.as_client ThanosClient.QueryInstant ThanosClient.QueryRange
         query_type] in *.
  - unfold Observer.QueryInstant.
    cbn [Observer.literal Observer.now Observer.client].
    rewrite (bind_Returned time_Now _ w (clock w) w eq_refl).
    rewrite (bind_Returned _ _ _ _ _ Hcall), (bind_Returned _ _ _ _ _ Hh).
    reflexivity.
  - unfold Observer.QueryRange.
    cbn [Observer.literal Observer.now Observer.client].
    rewrite (bind_Returned time_Now _ w (clock w) w eq_refl).
    rewrite (bind_Returned _ _ _ _ _ Hcall), (bind_Returned _ _ _ _ _ Hh).
    reflexivity.
Qed.

(** A Jitterer runs the wrapped stage in the world its sleep leaves. *)
Lemma query_Jitterer (jq : Jitterer.t) ctx req w ws :
  Jitterer.sleep jq w = Returned tt ws ->
  query (Jitterer.as_client jq) ctx req w = query (Jitterer.client jq) ctx req ws.
Proof.
  intros Hs. destruct req;
    cbn [query Jitterer.as_client ThanosClient.QueryInstant ThanosClient.QueryRange];
    unfold Jitterer.QueryInstant, Jitterer.QueryRange;
    now rewrite (bind_Returned _ _ _ _ _ Hs).
Qed.

(** C3. A request that finds [active >= watermark] on entry is refused
    at once: the stage returns the [RequestBlockedError] of type
    [backpressure] and the world is the one it was called in, so the next
    stage was not called (whatever it is), [active] was not incremented
    and [watermark] did not change.  The stages in front of the controller
    hand the refusal back as it is: a Jitterer with a delay that is not
    negative, and a fresh Observer around that Jitterer, return the same
    error value and leave the controller as it was. *)
Theorem Backpressure_refusal_fails_fast
    (b : Backpressure.t) (ctx : context) (req : request) (w : World) :
  CongestionState.active (congestion w) >= CongestionState.watermark (congestion w) ->
  query (Backpressure.as_client b) ctx req w = Returned (Some Backpressure.blocked) w /\
  errors_As Backpressure.blocked None = (true, Some {| Type' := "backpressure" |}) /\
  (forall delay, 0 <= delay ->
     exists w',
       query (Jitterer.as_client (Jitterer.NewJitterer (Backpressure.as_client b) delay)) ctx req w
         = Returned (Some Backpressure.blocked) w' /\
       congestion w' = congestion w) /\
  (forall delay, 0 <= delay ->
     exists w',
       query (Observer.as_client
                (Observer.literal
                   (Jitterer.as_client (Jitterer.NewJitterer (Backpressure.as_client b) delay))))
         ctx req w
         = Returned (Some Backpressure.blocked) w' /\
       congestion w' = congestion w).
Proof.
  intros Hfull.
  assert (Hrefuse : forall w0, congestion w0 = congestion w ->
            query (Backpressure.as_client b) ctx req w0
            = Returned (Some Backpressure.blocked) w0).
  { intros w0 Hsame. rewrite query_Backpressure. apply through_refused.
    now rewrite Hsame. }
  assert (Hjit : forall delay, 0 <= delay ->
            exists ws,
              query (Jitterer.as_client (Jitterer.NewJitterer (Backpressure.as_client b) delay))
                ctx req w
              = Returned (Some Backpressure.blocked) ws /\
              congestion ws = congestion w /\ clock w <= clock ws).
  { intros delay Hd.
    destruct (sleep_returns (Jitterer.NewJitterer (Backpressure.as_client b) delay) w Hd)
      as (ws & Hs & Hcong & _ & Hclock).
    exists ws. rewrite (query_Jitterer _ ctx req w ws Hs).
    cbn [Jitterer.NewJitterer Jitterer.client]. rewrite (Hrefuse ws Hcong). now repeat split. }
  split; [now apply Hrefuse |]. split; [reflexivity |]. split.
  - intros delay Hd. destruct (Hjit delay Hd) as (ws & Hq & Hcong & _).
    exists ws. now split.
  - intros delay Hd. destruct (Hjit delay Hd) as (ws & Hq & Hcong & Hclock).
    eexists. split.
    + apply (Observer_hands_back _ ctx req w Backpressure.blocked _ ws Hq eq_refl Hclock).
    + exact Hcong.
Qed.

(** The statement at scenario S5 of the spec: [watermark = 1] and one
    request in flight. *)
Lemma Backpressure_refusal_fails_fast_witness :
  let b := {| Backpressure.client := Exit.as_client; Backpressure.queries := [];
              Backpressure.monitoringURL := EmptyString |} in
  let w := world_with (CongestionState.mk 1 10 1 1) in
  CongestionState.active (congestion w) >= CongestionState.watermark (congestion w) /\
  query (Backpressure.as_client b) 0%nat (Instant zero_instant) w
    = Returned (Some Backpressure.blocked) w.
Proof.
  intros b w. split; [simpl; lia |].
  apply (Backpressure_refusal_fails_fast b 0%nat (Instant zero_instant) w).
  simpl. lia.
Defined.

(** C4. The polarity of the test on [errors.As] is inverted.  In a fresh
    Observer, for a non-nil error of the delegated call: when the error
    matches [*RequestBlockedError], [handleMetrics] adds one to
    [querymw_error_count] and leaves every [querymw_block_count] counter as
    it was; when it does not match, [handleMetrics] panics and no counter
    moves.  So the block counter is never incremented and the error counter
    is incremented exactly for the refusals. *)
Theorem handleMetrics_polarity_inverted
    (q : ThanosClient.t) (err : error) (start : Z) (queryType : string) (w : World) :
  start <= clock w ->
  (forall p, errors_As err None = (true, p) ->
     exists w',
       Observer.handleMetrics (Observer.literal q) (Some err) start queryType w
         = Returned tt w' /\
       counter_value (errCountMetric, [queryType]) w'
         = counter_value (errCountMetric, [queryType]) w + 1 /\
       forall lvs, counter_value (blockCountMetric, lvs) w'
                   = counter_value (blockCountMetric, lvs) w) /\
  (fst (errors_As err None) = false ->
     Observer.handleMetrics (Observer.literal q) (Some err) start queryType w
       = Panicked nil_dereference w).
Proof.
  intros Hclock. split.
  - intros p Has. eexists. split; [apply (handleMetrics_matched q err p); assumption |].
    unfold counter_value. cbn [metrics set_metrics]. split.
    + rewrite counter_add_to_other, counter_add_to_other by (unfold latencyMetric,
        reqCountMetric, errCountMetric; congruence).
      apply counter_add_to_same.
    + intros lvs.
      rewrite !counter_add_to_other by (unfold latencyMetric, reqCountMetric,
        errCountMetric, blockCountMetric; congruence).
      reflexivity.
  - intros Hm. unfold Observer.handleMetrics.
    pose proof (errors_As_unmatched err None Hm) as Ht.
    destruct (errors_As err None) as [matched blocked]. simpl in Hm, Ht. subst.
    reflexivity.
Qed.

(** Scenario S5 on the code: the refusal comes back, counted as an error
    and as a request; the block counter of the spec stays at zero. *)
Example scenario_S5_counts_an_error :
  exists w',
    scenario_S5 = Returned (Some Backpressure.blocked) w' /\
    counter_value (errCountMetric, ["instant"%string]) w' = 1 /\
    counter_value (reqCountMetric, ["instant"%string]) w' = 1 /\
    counter_value (blockCountMetric, ["instant"%string; "backpressure"%string]) w' = 0 /\
    congestion w' = CongestionState.mk 1 10 1 1.
Proof. eexists. split; [reflexivity |]. vm_compute. repeat split. Qed.

(** The statement at the refusal of the controller. *)
Lemma handleMetrics_polarity_inverted_witness :
  0 <= clock fresh_world /\
  exists w',
    Observer.handleMetrics (Observer.literal ok_client) (Some Backpressure.blocked)
      0 "instant" fresh_world = Returned tt w' /\
    counter_value (errCountMetric, ["instant"%string]) w'
      = counter_value (errCountMetric, ["instant"%string]) fresh_world + 1 /\
    counter_value (blockCountMetric, ["instant"%string; "backpressure"%string]) w'
      = counter_value (blockCountMetric, ["instant"%string; "backpressure"%string])
          fresh_world.
Proof.
  split; [simpl; lia |].
  destruct (handleMetrics_polarity_inverted ok_client Backpressure.blocked 0 "instant"
              fresh_world) as [Hmatched _]; [simpl; lia |].
  destruct (Hmatched _ eq_refl) as (w' & Hrun & Herr & Hblock).
  exists w'. split; [exact Hrun |]. split; [exact Herr | apply Hblock].
Defined.

(** ** Configuration *)

(** A delay of zero with the jitter stage on is rejected first of all, and
    no pipeline is built. *)
Lemma Validate_rejects_zero_jitter_delay
    (ParseExpr url_Parse : string -> option error) (c : Config.t) (w : World) :
  Config.EnableJitter c = true ->
  Config.JitterDelay c = 0 ->
  Validate ParseExpr url_Parse c = Some (sentinel ErrJitterDelayRequired) /\
  NewMiddlewareFromConfig ParseExpr url_Parse c w
    = Returned (None, Some (sentinel ErrJitterDelayRequired)) w.
Proof.
  intros Hon Hzero.
  assert (Hv : Validate ParseExpr url_Parse c = Some (sentinel ErrJitterDelayRequired)).
  { unfold Validate. now rewrite Hon, Hzero. }
  split; [exact Hv |]. unfold NewMiddlewareFromConfig. now rewrite Hv.
Qed.

(** A positive delay passes the jitter check: with the other stages off
    the configuration is valid. *)
Lemma Validate_accepts_positive_jitter_delay
    (ParseExpr url_Parse : string -> option error) (d : Z) :
  0 < d -> Validate ParseExpr url_Parse (jitter_only d) = None.
Proof.
  intros Hpos. unfold Validate.
  cbn [jitter_only Config.EnableJitter Config.JitterDelay
       Config.EnableBackpressure Config.EnableObserver andb].
  destruct (Z.eqb_spec d 0); [lia | reflexivity].
Qed.

(** C7. [Validate] compares the jitter delay with zero only.  A
    configuration with the jitter stage on and a negative delay passes (the
    other stages being off), the pipeline is built, and every request
    through it panics in [rand.Intn]. *)
Theorem Validate_accepts_negative_jitter_delay
    (ParseExpr url_Parse : string -> option error) (d : Z) :
  d < 0 ->
  Validate ParseExpr url_Parse (jitter_only d) = None /\
  forall w, exists entry,
    NewMiddlewareFromConfig ParseExpr url_Parse (jitter_only d) w
      = Returned (Some entry, None) w /\
    forall ctx req w0,
      query (client entry) ctx req w0 = Panicked "invalid argument to Intn" w0.
Proof.
  intros Hneg.
  assert (Hv : Validate ParseExpr url_Parse (jitter_only d) = None).
  { unfold Validate. cbn [jitter_only Config.EnableJitter Config.JitterDelay
      Config.EnableBackpressure Config.EnableObserver andb].
    destruct (Z.eqb_spec d 0); [lia | reflexivity]. }
  split; [exact Hv |].
  intros w. eexists. split.
  - unfold NewMiddlewareFromConfig. rewrite Hv. reflexivity.
  - intros ctx req w0. cbn [client].
    assert (Hs : Jitterer.sleep (Jitterer.NewJitterer Exit.as_client d) w0
                 = Panicked "invalid argument to Intn" w0).
    { unfold Jitterer.sleep. cbn [Jitterer.NewJitterer Jitterer.delay].
      destruct (Z.eqb_spec d 0); [lia |].
      unfold bind, rand_Intn. destruct (Z.leb_spec d 0); [reflexivity | lia]. }
    destruct req;
      cbn [query jitter_only Config.JitterDelay Config.EnableJitter Jitterer.as_client
           ThanosClient.QueryInstant ThanosClient.QueryRange];
      unfold Jitterer.QueryInstant, Jitterer.QueryRange;
      now rewrite (bind_Panicked _ _ _ _ _ Hs).
Qed.

(** The statement at [-jitter-delay=-1ns]. *)
Lemma Validate_accepts_negative_jitter_delay_witness :
  -1 < 0 /\
  Validate (fun _ => None) (fun _ => None) (jitter_only (-1)) = None.
Proof.
  split; [lia |].
  apply (Validate_accepts_negative_jitter_delay (fun _ => None) (fun _ => None) (-1)).
  lia.
Defined.

(** ** Strings *)

Lemma append_empty_r (s : string) : s +:+ EmptyString = s.
Proof.
  induction s as [| c s IH]; [reflexivity |].
  change (String c (s +:+ EmptyString) = String c s). now f_equal.
Qed.

Lemma append_associative (a b c : string) : (a +:+ b) +:+ c = a +:+ (b +:+ c).
Proof.
  induction a as [| x a IH]; [reflexivity |].
  change (String x ((a +:+ b) +:+ c) = String x (a +:+ (b +:+ c))). now f_equal.
Qed.

Lemma append_cons (c : Ascii.ascii) (a b : string) :
  String c a +:+ b = String c (a +:+ b).
Proof. reflexivity. Qed.

(** [strings.HasPrefix]: the string starts with the prefix. *)
Lemma HasPrefix_iff (s pre : string) :
  HasPrefix s pre = true <-> exists rest, s = pre +:+ rest.
Proof.
  unfold HasPrefix. revert s.
  induction pre as [| c pre IH]; intros s.
  - split; [intros _; exists s; reflexivity | intros _; now destruct s].
  - destruct s as [| d s]; cbn [String.prefix].
    + split; [discriminate | intros [rest Hr]; discriminate].
    + destruct (Ascii.ascii_dec c d) as [-> | Hne].
      * rewrite IH. split; intros [rest Hr]; exists rest.
        -- rewrite append_cons. now f_equal.
        -- rewrite append_cons in Hr. now injection Hr.
      * split; [discriminate | intros [rest Hr]].
        rewrite append_cons in Hr. injection Hr as Hc _. congruence.
Qed.

(** The test of [Handle], read as a statement on paths. *)
Lemma HasPrefix_subpath (q p : string) :
  HasPrefix (q +:+ "/") (p +:+ "/") = true <-> subpath q p.
Proof.
  rewrite HasPrefix_iff. unfold subpath. split.
  - revert q. induction p as [| c p IH]; intros q [rest Hr].
    + destruct q as [| d q].
      * now left.
      * right. exists q. rewrite !append_cons in Hr. injection Hr as -> _. reflexivity.
    + destruct q as [| d q]; rewrite !append_cons in Hr.
      * injection Hr as _ Hr. destruct p; discriminate.
      * injection Hr as -> Hr.
        destruct (IH q (ex_intro _ rest Hr)) as [-> | [rest' ->]].
        -- now left.
        -- right. exists rest'. reflexivity.
  - intros [-> | [rest ->]].
    + exists EmptyString. now rewrite append_empty_r.
    + exists (rest +:+ "/"). now rewrite !append_associative.
Qed.

(** The loop of [Handle] takes one slash off the end, if there is one. *)
Lemma sanitize_TrimSuffix (pattern : string) :
  strictMux.sanitize pattern = TrimSuffix pattern "/".
Proof.
  unfold strictMux.sanitize.
  destruct (String.eqb_spec (TrimSuffix pattern "/") pattern) as [Heq | Hne];
    cbn [negb]; congruence.
Qed.

(** ** The strict router *)

(** When the range over [seen] finds a pattern. *)
Lemma shared_with_iff (sanitized : string) (seen : gset string) :
  is_Some (strictMux.shared_with sanitized seen)
  <-> exists p, p ∈ seen /\ subpath sanitized p.
Proof.
  unfold strictMux.shared_with. split.
  - intros [p Hp]. apply find_some in Hp as [Hin Hpre].
    exists p. split.
    + now apply elem_of_elements, list_elem_of_In.
    + now apply HasPrefix_subpath.
  - intros (p & Hin & Hsub).
    destruct (find _ (elements seen)) as [p' |] eqn:Hfind; [now exists p' |].
    apply elem_of_elements, list_elem_of_In in Hin.
    pose proof (find_none _ _ Hfind p Hin) as Hno. cbn beta in Hno.
    apply HasPrefix_subpath in Hsub. congruence.
Qed.

(** C5, as the code has it.  [Handle] returns an error exactly when the
    sanitized pattern is a subpath of (or equal to) a pattern registered
    before.  It does not look the other way: a pattern of which a
    registered pattern is a proper subpath is accepted.  When it accepts,
    it hands the sanitized pattern and the pattern with a slash at its end
    to the wrapped mux, with the same handler, and records the sanitized
    pattern. *)
Theorem Handle_rejects_subpaths_of_registered
    {H : Type} (s : strictMux.t H) (pattern : string) (handler : H) :
  (is_Some (fst (strictMux.Handle s pattern handler))
   <-> exists p, p ∈ strictMux.seen s /\ subpath (strictMux.sanitize pattern) p) /\
  (fst (strictMux.Handle s pattern handler) = None ->
   snd (strictMux.Handle s pattern handler)
   = {| strictMux.mux :=
          strictMux.mux s ++ [(strictMux.sanitize pattern, handler);
                              (strictMux.sanitize pattern +:+ "/", handler)];
        strictMux.seen := {[strictMux.sanitize pattern]} ∪ strictMux.seen s |}) /\
  (is_Some (fst (strictMux.Handle s pattern handler)) ->
   snd (strictMux.Handle s pattern handler) = s).
Proof.
  pose proof (shared_with_iff (strictMux.sanitize pattern) (strictMux.seen s)) as Hshared.
  unfold strictMux.Handle.
  destruct (bool_decide_reflect (strictMux.sanitize pattern ∈ strictMux.seen s))
    as [Hin | Hnotin].
  - cbn [fst snd]. repeat split.
    + intros _. exists (strictMux.sanitize pattern). split; [exact Hin | now left].
    + intros _. now eexists.
    + discriminate.
  - destruct (strictMux.shared_with (strictMux.sanitize pattern) (strictMux.seen s))
      as [p |] eqn:Hfind; cbn [fst snd].
    + repeat split.
      * intros _. apply Hshared. now eexists.
      * intros _. now eexists.
      * discriminate.
    + repeat split.
      * intros [e He]. discriminate.
      * intros Hex. apply Hshared in Hex. destruct Hex as [e He]. discriminate.
      * intros [e He]. discriminate.
Qed.

(** Scenario S6 of the spec: after ["/api/v1/query"], the pattern
    ["/api/v1/query/sub"] is refused for sharing it. *)
Example Handle_refuses_child_after_parent :
  fst (strictMux.Handle
         (snd (strictMux.Handle strictMux.newStrictMux "/api/v1/query" 0%nat))
         "/api/v1/query/sub" 1%nat)
  = Some (strictMux.SharesRegistered "/api/v1/query" "/api/v1/query/sub").
Proof. vm_compute. reflexivity. Qed.

(** C5, as the spec has it, fails: ["/api/v1/query/sub"] and
    ["/api/v1/query"] overlap, and a fresh router accepts them in this
    order. *)
Lemma Handle_accepts_parent_after_child :
  ~ (forall (p q : string) (s1 : strictMux.t nat),
       overlap p q ->
       strictMux.Handle strictMux.newStrictMux p 0%nat = (None, s1) ->
       is_Some (fst (strictMux.Handle s1 q 1%nat))).
Proof.
  intros Hall.
  assert (Hover : overlap "/api/v1/query/sub" "/api/v1/query").
  { left. right. exists "sub"%string. vm_compute. reflexivity. }
  assert (Hfirst :
    strictMux.Handle (H:=nat) strictMux.newStrictMux "/api/v1/query/sub" 0%nat
    = (None,
       {| strictMux.mux := [("/api/v1/query/sub"%string, 0%nat);
                            ("/api/v1/query/sub/"%string, 0%nat)];
          strictMux.seen := {[ "/api/v1/query/sub"%string ]} ∪ ∅ |})).
  { vm_compute. reflexivity. }
  pose proof (Hall _ _ _ Hover Hfirst) as [e He].
  vm_compute in He. discriminate.
Qed.

(** ** QueryOptions *)

Lemma Values_Add_same key value (v : gmap string (list string)) :
  Values_Add key value v !! key = Some (default [] (v !! key) ++ [value]).
Proof. unfold Values_Add. apply lookup_insert_eq. Qed.

Lemma Values_Add_other key key' value (v : gmap string (list string)) :
  key <> key' -> Values_Add key value v !! key' = v !! key'.
Proof. intros Hne. unfold Values_Add. now apply lookup_insert_ne. Qed.

(** C6, as the code has it.  [AddTo] returns a nil error and appends, to
    the values already under each key: [dedup] and [partial_response] with
    the boolean written [true] or [false]; [engine], also when it is
    empty; [max_source_resolution], only when it is not empty.  Every other
    key is left as it was: neither the method nor the HTTP headers are
    written. *)
Theorem AddTo_emits_four_keys (p : QueryOptions) (values : gmap string (list string)) :
  snd (AddTo p values) = None /\
  fst (AddTo p values) !! "dedup"
    = Some (default [] (values !! "dedup") ++ [FormatBool (Deduplicate p)]) /\
  fst (AddTo p values) !! "partial_response"
    = Some (default [] (values !! "partial_response") ++ [FormatBool (PartialResponse p)]) /\
  fst (AddTo p values) !! "engine"
    = Some (default [] (values !! "engine") ++ [Engine p]) /\
  fst (AddTo p values) !! "max_source_resolution"
    = (if String.eqb (MaxSourceResolution p) EmptyString
       then values !! "max_source_resolution"
       else Some (default [] (values !! "max_source_resolution")
                    ++ [MaxSourceResolution p])) /\
  (forall key : string,
      key <> "dedup"%string -> key <> "partial_response"%string ->
      key <> "engine"%string -> key <> "max_source_resolution"%string ->
      fst (AddTo p values) !! key = values !! key) /\
  FormatBool true = "true"%string /\ FormatBool false = "false"%string.
Proof.
  unfold AddTo. cbn [fst snd].
  destruct (String.eqb (MaxSourceResolution p) EmptyString) eqn:Hres; cbn [negb];
    repeat split.
  all: try (intros key H1 H2 H3 H4).
  all: repeat first
         [ rewrite Values_Add_same
         | rewrite Values_Add_other by congruence ];
       reflexivity.
Qed.

(** The statement at the options of a POST with a header. *)
Lemma AddTo_emits_four_keys_witness :
  fst (AddTo post_options ∅) !! "method" = None.
Proof.
  destruct (AddTo_emits_four_keys post_options ∅) as (_ & _ & _ & _ & _ & Hother & _).
  rewrite (Hother "method"%string) by discriminate.
  apply lookup_empty.
Defined.

(** C6, as the spec has it, fails: for options with a method, a header and
    no source resolution, three keys are written, and none of them carries
    the method, the header or the source resolution. *)
Lemma AddTo_omits_method_and_headers :
  fst (AddTo post_options ∅)
    = <["dedup"%string := ["true"%string]]>
        (<["engine"%string := ["thanos"%string]]>
           (<["partial_response"%string := ["false"%string]]> ∅)) /\
  ~ (forall p : QueryOptions,
       is_Some (fst (AddTo p ∅) !! "max_source_resolution") /\
       (exists key vs, fst (AddTo p ∅) !! key = Some vs /\ In (Method p) vs) /\
       (forall name vs, HTTPHeaders p !! name = Some vs ->
                        exists key, fst (AddTo p ∅) !! key = Some vs)).
Proof.
  split; [vm_compute; reflexivity |].
  intros Hall. destruct (Hall post_options) as ([vs Hres] & _ & _).
  vm_compute in Hres. discriminate.
Qed.
